(** * AMICI: generated model functions, an SBML regression model, and the
      simulation engine's error handling

    Three parts, each in a module of its own.

    - [Robertson]: the generated mass-matrix function of the Robertson
      model, [models/model_robertson/model_robertson_M.cpp].
    - [Regression2642]: the SBML model
      [python/tests/sbml_models/regression_2642.xml], its initial assignments
      and reaction fluxes, in exact rational arithmetic.
    - [Engine]: the integration driver and the steady-state solver of the
      simulation engine, after the engine's design: how a right-hand side
      that is not finite is handled, and when a steady-state computation
      fails.

    [realtype] is [double] in AMICI ([amici_defines.h]); it is modelled by
    Rocq's binary64 floats, so that [1.0], [NaN] and the arithmetic of the
    examples are the machine's. *)

From Stdlib Require Import ZArith QArith Qfield Floats Lia.
From stdpp Require Import base option list strings.

#[local] Open Scope Z_scope.

(** [realtype], as in [include/amici_defines.h]. *)
Abbreviation realtype := float.

(* ===================================================================== *)
(** * model_robertson_M.cpp *)
(* ===================================================================== *)

Module Robertson.

(** A [realtype *] argument points to a buffer, modelled by the list of its
    cells. *)
Abbreviation buffer := (list realtype).

(** The assignment [M[i] = v]. Writing past the end of the buffer is
    undefined behaviour in C++; the model has no result there. *)
Definition store (M : buffer) (i : nat) (v : realtype) : option buffer :=
  if decide (i < length M)%nat then Some (<[i := v]> M) else None.

(** [void M_model_robertson(realtype *M, const realtype t,
        const realtype *x, const realtype *p, const realtype *k)]:
<<
      M[0+0*3] = 1.0;
      M[1+1*3] = 1.0;
>>
    The function returns nothing and works by its effect on [M]: the model
    returns the buffer after the call. *)
Definition M_model_robertson (M : buffer) (t : realtype)
    (x p k : buffer) : option buffer :=
  M1 ← store M (0 + 0 * 3) 1%float;
  store M1 (1 + 1 * 3) 1%float.

(** The 3x3 buffer is read column by column, as the index [i + j*3] of the
    source has it: entry (row [i], column [j]). *)
Definition entry (M : buffer) (i j : nat) : option realtype :=
  M !! (i + j * 3)%nat.

(** A zero-initialised buffer of [n] cells. *)
Definition zeros (n : nat) : buffer := replicate n 0%float.

(** The product of the 3x3 matrix held in [M] with the vector [v]. *)
Definition matvec3 (M : buffer) (v : buffer) : buffer :=
  map (fun i =>
         foldr (fun j acc =>
                  (default nan (entry M i j) * default nan (v !! j)
                   + acc)%float)
               0%float (seq 0 3))
      (seq 0 3).

(** diag(1, 1, 0), column by column. *)
Definition diag110 : buffer :=
  [1; 0; 0;  0; 1; 0;  0; 0; 0]%float.

(** On a buffer that holds cell 4, the call is defined and writes cells 0
    and 4 only. *)
Lemma M_model_robertson_writes (M : buffer) (t : realtype) (x p k : buffer) :
  (5 <= length M)%nat ->
  M_model_robertson M t x p k
  = Some (<[4%nat := 1%float]> (<[0%nat := 1%float]> M)).
Proof.
  intros Hlen.
  destruct M as [|m0 [|m1 [|m2 [|m3 [|m4 M]]]]]; cbn in Hlen; try lia.
  unfold M_model_robertson, store.
  rewrite decide_True by (cbn; lia). cbn [mbind option_bind].
  rewrite decide_True by (cbn; lia). reflexivity.
Qed.

(** C8. On a zero-initialised 3x3 buffer, whatever [t], [x], [p] and [k]
    are, the call leaves diag(1, 1, 0): cells 0 and 4 hold 1.0 and every
    other cell, the third diagonal cell 8 among them, is still 0. The third
    row of the mass matrix is zero (the third equation is algebraic) and the
    matrix sends the third unit vector to zero (it is singular). On any
    buffer of nine cells the call sets cells 0 and 4 to 1.0 and leaves the
    others as they were. *)
Theorem M_model_robertson_zero_buffer :
  forall (t : realtype) (x p k : buffer),
    M_model_robertson (zeros 9) t x p k = Some diag110
    /\ (forall i : nat,
          (i < 9)%nat ->
          diag110 !! i =
            Some (if decide (i = 0%nat \/ i = 4%nat) then 1%float else 0%float))
    /\ (forall j : nat, (j < 3)%nat -> entry diag110 2 j = Some 0%float)
    /\ matvec3 diag110 [0; 0; 1]%float = [0; 0; 0]%float
    /\ (forall M : buffer,
          length M = 9%nat ->
          exists M' : buffer,
            M_model_robertson M t x p k = Some M'
            /\ length M' = 9%nat
            /\ M' !! 0%nat = Some 1%float
            /\ M' !! 4%nat = Some 1%float
            /\ (forall i : nat, i <> 0%nat -> i <> 4%nat -> M' !! i = M !! i)).
Proof.
  intros t x p k. split; [reflexivity|]. split; [|split; [|split]].
  - intros i Hi. do 9 (destruct i as [|i]; [reflexivity|]). lia.
  - intros j Hj. do 3 (destruct j as [|j]; [reflexivity|]). lia.
  - reflexivity.
  - intros M Hlen. eexists. split;
      [apply M_model_robertson_writes; lia|].
    split; [rewrite !length_insert; exact Hlen|].
    split; [|split].
    + rewrite list_lookup_insert_ne by lia.
      apply list_lookup_insert_eq. lia.
    + apply list_lookup_insert_eq. rewrite length_insert. lia.
    + intros i H0 H4. rewrite !list_lookup_insert_ne by congruence.
      reflexivity.
Qed.

(** C9. The numeric inputs play no part: on one initial buffer, two calls
    with any two tuples of inputs leave the same buffer (or are both
    undefined, when the buffer is too short to hold cell 4). *)
Theorem M_model_robertson_ignores_inputs :
  forall (M : buffer) (t1 t2 : realtype) (x1 p1 k1 x2 p2 k2 : buffer),
    M_model_robertson M t1 x1 p1 k1 = M_model_robertson M t2 x2 p2 k2.
Proof. intros. reflexivity. Qed.

End Robertson.

(* ===================================================================== *)
(** * python/tests/sbml_models/regression_2642.xml *)
(* ===================================================================== *)

Module Regression2642.

#[local] Open Scope string_scope.
#[local] Open Scope Q_scope.

(** The MathML the file uses: [<ci>], [<cn>] and [<apply>] with [<divide/>],
    [<minus/>] or [<times/>]. A [<cn>] holds a decimal numeral, kept as the
    exact fraction it denotes. *)
Inductive math : Type :=
  | ci (x : string)
  | cn (q : Q)
  | divide (a b : math)
  | minus (a b : math)
  | times (a b : math).

Record compartment : Type :=
  { compartment_id : string; size : Q }.

Record species : Type :=
  { species_id : string; species_compartment : string;
    hasOnlySubstanceUnits : bool }.

Record parameter : Type :=
  { parameter_id : string; value : option Q }.

Record initialAssignment : Type :=
  { symbol : string; assignment_math : math }.

Record speciesReference : Type :=
  { reference_species : string; stoichiometry : Q }.

Record reaction : Type :=
  { reaction_id : string;
    listOfReactants : list speciesReference;
    listOfProducts : list speciesReference;
    kineticLaw : math }.

Record model : Type :=
  { listOfCompartments : list compartment;
    listOfSpecies : list species;
    listOfParameters : list parameter;
    listOfInitialAssignments : list initialAssignment;
    listOfReactions : list reaction }.

(** The model of the file, element by element (unit definitions left out:
    they take no part in the arithmetic). *)
Definition regression_2642 : model :=
  {| listOfCompartments :=
       [ {| compartment_id := "cytosol"; size := 5 # 10000 |} ];
     listOfSpecies :=
       [ {| species_id := "MR_i"; species_compartment := "cytosol";
            hasOnlySubstanceUnits := false |};
         {| species_id := "MR_m"; species_compartment := "cytosol";
            hasOnlySubstanceUnits := false |} ];
     listOfParameters :=
       [ {| parameter_id := "synthesis_MR"; value := None |};
         {| parameter_id := "recycling"; value := Some (45 # 10000000) |};
         {| parameter_id := "binding"; value := None |};
         {| parameter_id := "MR_i_t0"; value := Some (1400000 # 1) |};
         {| parameter_id := "MR_m_t0"; value := Some (600000 # 1) |} ];
     listOfInitialAssignments :=
       [ {| symbol := "MR_i"; assignment_math := ci "MR_i_t0" |};
         {| symbol := "MR_m"; assignment_math := ci "MR_m_t0" |};
         {| symbol := "synthesis_MR";
            assignment_math :=
              divide (cn (585177319092733 # 100000000000000000))
                     (cn (606 # 100000)) |};
         {| symbol := "binding";
            assignment_math :=
              divide (minus (times (ci "recycling") (ci "MR_i"))
                            (ci "synthesis_MR"))
                     (ci "MR_m") |} ];
     listOfReactions :=
       [ {| reaction_id := "_J0";
            listOfReactants := [];
            listOfProducts :=
              [ {| reference_species := "MR_i"; stoichiometry := 1 |} ];
            kineticLaw := ci "synthesis_MR" |};
         {| reaction_id := "_J1";
            listOfReactants :=
              [ {| reference_species := "MR_i"; stoichiometry := 1 |} ];
            listOfProducts :=
              [ {| reference_species := "MR_m"; stoichiometry := 1 |} ];
            kineticLaw := times (ci "recycling") (ci "MR_i") |};
         {| reaction_id := "_J2";
            listOfReactants :=
              [ {| reference_species := "MR_m"; stoichiometry := 1 |} ];
            listOfProducts :=
              [ {| reference_species := "MR_i"; stoichiometry := 1 |} ];
            kineticLaw := times (ci "binding") (ci "MR_m") |} ] |}.

(** A parameter valuation: the values a caller gives to parameters, which
    take the place of the [value] attributes of the file. *)
Definition valuation : Type := string -> option Q.

(** The valuation that keeps every value of the file. *)
Definition as_in_file : valuation := fun _ => None.

(** The value of MathML under an assignment of its identifiers, in exact
    rational arithmetic. A quotient by zero has no value. *)
Fixpoint eval (env : string -> option Q) (e : math) : option Q :=
  match e with
  | ci x => env x
  | cn q => Some q
  | divide a b =>
      x ← eval env a; y ← eval env b;
      if Qeq_bool y 0 then None else Some (x / y)
  | minus a b => x ← eval env a; y ← eval env b; Some (x - y)
  | times a b => x ← eval env a; y ← eval env b; Some (x * y)
  end.

(** The value of an identifier at [t = 0]. An initial assignment overrides
    any other value of its symbol; its formula is evaluated with the values
    at [t = 0] of the identifiers it mentions. Otherwise the identifier is a
    parameter (the caller's value, else the file's) or a compartment (its
    size). [fuel] bounds the chain of assignments followed. *)
Fixpoint value_at_t0 (fuel : nat) (v : valuation) (m : model) (x : string)
    : option Q :=
  match fuel with
  | O => None
  | S fuel' =>
      match find (fun a => String.eqb (symbol a) x)
                 (listOfInitialAssignments m) with
      | Some a => eval (value_at_t0 fuel' v m) (assignment_math a)
      | None =>
          match find (fun q => String.eqb (parameter_id q) x)
                     (listOfParameters m) with
          | Some q => match v x with Some r => Some r | None => value q end
          | None =>
              size <$> find (fun c => String.eqb (compartment_id c) x)
                            (listOfCompartments m)
          end
      end
  end.

(** No chain of assignments is longer than the list of assignments. *)
Definition initial_value (v : valuation) (m : model) (x : string)
    : option Q :=
  value_at_t0 (S (length (listOfInitialAssignments m))) v m x.

(** The rate of a reaction at [t = 0]: its kinetic law at the initial
    values. *)
Definition initial_rate (v : valuation) (m : model) (r : reaction)
    : option Q :=
  eval (initial_value v m) (kineticLaw r).

(** The net stoichiometry of species [s] in reaction [r]: produced minus
    consumed. *)
Definition net_stoichiometry (s : string) (r : reaction) : Q :=
  let total l :=
    foldr (fun sr acc =>
             if String.eqb (reference_species sr) s
             then stoichiometry sr + acc else acc) 0 l in
  total (listOfProducts r) - total (listOfReactants r).

(** The net rate of species [s] at [t = 0]: the sum over the reactions, in
    the order of the file, of net stoichiometry times rate. *)
Definition net_initial_rate (v : valuation) (m : model) (s : string)
    : option Q :=
  foldr (fun r acc =>
           a ← acc; j ← initial_rate v m r;
           Some (net_stoichiometry s r * j + a))
        (Some 0) (listOfReactions m).

(** The value the file assigns to [synthesis_MR]. *)
Definition synthesis_MR_value : Q :=
  (585177319092733 # 100000000000000000) / (606 # 100000).

(** The reactions of the file, by position. *)
Definition reaction_at (m : model) (i : nat) : option reaction :=
  listOfReactions m !! i.

(** A rational that is not zero fails the test of [divide]. *)
Lemma Qeq_bool_nonzero (q : Q) : ~ q == 0 -> Qeq_bool q 0 = false.
Proof.
  intros Hq. destruct (Qeq_bool q 0) eqn:E; [|reflexivity].
  apply Qeq_bool_eq in E. contradiction.
Qed.

(** The value of [synthesis_MR] is a quotient of two positive numerals. *)
Lemma synthesis_MR_value_nonzero : ~ synthesis_MR_value == 0.
Proof. intros H. vm_compute in H. discriminate H. Qed.

(** C10. Whatever values the parameters are given, as long as the initial
    value of [MR_m] is not zero: the initial assignment of [binding] has the
    value [(recycling * MR_i - synthesis_MR) / MR_m]; the three reactions
    have the rates [synthesis_MR], [recycling * MR_i] and [binding * MR_m];
    [rate _J0 - rate _J1 + rate _J2] is zero, and so is the net initial rate
    of [MR_i]; the net initial rate of [MR_m] is [synthesis_MR], the value
    the file assigns to it, which is not zero. All equalities are those of
    rational numbers. *)
Theorem MR_i_initial_flux_balance :
  forall (v : valuation) (MR_m : Q),
    initial_value v regression_2642 "MR_m" = Some MR_m ->
    ~ MR_m == 0 ->
    exists synthesis_MR recycling MR_i binding J0 J1 J2 r_i r_m : Q,
      initial_value v regression_2642 "synthesis_MR" = Some synthesis_MR
      /\ initial_value v regression_2642 "recycling" = Some recycling
      /\ initial_value v regression_2642 "MR_i" = Some MR_i
      /\ initial_value v regression_2642 "binding" = Some binding
      /\ binding == (recycling * MR_i - synthesis_MR) / MR_m
      /\ reaction_at regression_2642 0 ≫= initial_rate v regression_2642
         = Some J0
      /\ reaction_at regression_2642 1 ≫= initial_rate v regression_2642
         = Some J1
      /\ reaction_at regression_2642 2 ≫= initial_rate v regression_2642
         = Some J2
      /\ J0 == synthesis_MR
      /\ J1 == recycling * MR_i
      /\ J2 == binding * MR_m
      /\ J0 - J1 + J2 == 0
      /\ net_initial_rate v regression_2642 "MR_i" = Some r_i
      /\ r_i == 0
      /\ net_initial_rate v regression_2642 "MR_m" = Some r_m
      /\ r_m == synthesis_MR
      /\ synthesis_MR == synthesis_MR_value
      /\ ~ synthesis_MR == 0.
Proof.
  intros v MR_m Hm Hnz.
  pose proof (Qeq_bool_nonzero MR_m Hnz) as Hdiv.
  unfold net_initial_rate, initial_rate, initial_value, reaction_at in *.
  cbn -[Qmult Qdiv Qminus Qplus Qeq_bool Qopp] in *.
  destruct (v "MR_m_t0") as [m0|], (v "recycling") as [rc|],
           (v "MR_i_t0") as [i0|];
    injection Hm as Hm; subst MR_m;
    cbn -[Qmult Qdiv Qminus Qplus Qeq_bool Qopp];
    rewrite ?Hdiv; unfold net_stoichiometry;
    cbn -[Qmult Qdiv Qminus Qplus Qopp];
    do 9 eexists;
    repeat (split; [first [reflexivity | field; exact Hnz | ring]|]);
    exact synthesis_MR_value_nonzero.
Qed.

(** The hypotheses hold for the values of the file itself. *)
Lemma MR_i_initial_flux_balance_in_file :
  exists r_i r_m : Q,
    net_initial_rate as_in_file regression_2642 "MR_i" = Some r_i /\ r_i == 0
    /\ net_initial_rate as_in_file regression_2642 "MR_m" = Some r_m
    /\ r_m == synthesis_MR_value.
Proof.
  destruct (MR_i_initial_flux_balance as_in_file (600000 # 1))
    as (s & rc & mi & b & j0 & j1 & j2 & ri & rm & H);
    [reflexivity | intros H; vm_compute in H; discriminate H |].
  exists ri, rm. intuition (eauto; etransitivity; eauto).
Defined.

End Regression2642.

(* ===================================================================== *)
(** * The simulation engine: integration driver and steady-state solver *)
(* ===================================================================== *)

Module Engine.

(** The state vector [x], the parameter vector [p]. *)
Definition vec : Type := list realtype.

(** Modelled from the spec: the error taxonomy of the engine (its section on
    error handling). The C++ sources of the engine are not part of this
    development; the driver and the solver below follow its design. *)
Inductive Error : Type :=
  | EvaluationError
  | SingularMatrixError
  | NonConvergenceError
  | IntegrationFailure
  | EventLocalizationError.

(** An operation that can fail returns its value or one of the errors. *)
Inductive result (A : Type) : Type :=
  | Ok (a : A)
  | Err (e : Error).
Arguments Ok {A} a.
Arguments Err {A} e.

#[export] Instance result_ret : MRet result := fun A a => Ok a.
#[export] Instance result_bind : MBind result :=
  fun A B f r => match r with Ok a => f a | Err e => Err e end.

(** Modelled from the spec: "recoverable by step shrink/retry"
    ([EvaluationError]) and "recoverable by step/Jacobian retry"
    ([SingularMatrixError]); the other three are fatal. *)
Definition recoverable (e : Error) : bool :=
  match e with
  | EvaluationError | SingularMatrixError => true
  | NonConvergenceError | IntegrationFailure | EventLocalizationError => false
  end.

(** A finite [realtype]: neither NaN nor an infinity. *)
Definition is_finite (v : realtype) : bool :=
  negb (is_nan v || is_infinity v).

(** Modelled from the spec: the JacobianHandle of the data model, a dense
    [n] x [n] buffer (column by column, as the generated code indexes it) or
    a sparse compressed structure. *)
Inductive JacobianHandle : Type :=
  | DenseJ (n : nat) (buffer : vec)
  | SparseJ (colptrs rowidx : list nat) (values : vec).

(** Modelled from the spec: the Model Contract, the operations of a compiled
    model that the driver and the steady-state solver call. [rhs_fn] is the
    compiled callback as it is, before the check of its output. The model
    declares no root function and no sensitivity is requested, so the other
    operations of the contract are never called by what is modelled here. *)
Record ModelContract : Type :=
  { rhs_fn : realtype -> vec -> vec -> vec;
    jacobian : realtype -> vec -> vec -> JacobianHandle;
    initial_state : vec -> vec }.

(** Modelled from the spec: [rhs(t, x, p)] "fails with [EvaluationError] on
    non-finite output (NaN/Inf)". *)
Definition rhs (m : ModelContract) (t : realtype) (x p : vec) : result vec :=
  let dx := rhs_fn m t x p in
  if forallb is_finite dx then Ok dx else Err EvaluationError.

(** Modelled from the spec: the options of the configuration surface that
    the modelled components read. *)
Inductive SteadyStateMode : Type := integration | newton | off.

Record Config : Type :=
  { absolute_tolerance : realtype;
    relative_tolerance : realtype;
    max_steps : nat;
    steady_state_mode : SteadyStateMode }.

(** Modelled from the spec: the bounds and choices the spec names without
    fixing a value: the "retry budget" of local recovery, how a rejected
    step is shrunk, the first step, and the iteration budget of the Newton
    solve. *)
Record Policy : Type :=
  { retry_budget : nat;
    shrink_step : realtype -> realtype;
    initial_step : realtype;
    newton_budget : nat }.

(** Modelled from the spec: the solver-library boundary. [advance] is
    "advance by adaptive step": from [(t, x)], with the model's right-hand
    side as callback and a step of at most [h], it gives the new time, the
    new state and the step it proposes next, or an error. [interpolate] is
    "interpolate dense output" between two accepted states. [linear_solve]
    is the solve interface of the Linear Algebra Adapter (factorize, then
    solve), which fails with [SingularMatrixError]. *)
Record SolverLibrary : Type :=
  { advance : (realtype -> vec -> result vec) -> realtype ->
              realtype -> vec -> result (realtype * vec * realtype);
    interpolate : realtype -> vec -> realtype -> vec -> realtype -> vec;
    linear_solve : JacobianHandle -> vec -> result vec }.

(** Modelled from the spec: the state machine of the Integration Driver. *)
Inductive Phase : Type :=
  | Initializing
  | Stepping
  | EventPending
  | SteadyStateCheck
  | Finished
  | Failed.

(** Modelled from the spec: what one run owns. [t] and [x] are the
    ModelState; [h] is the step the next attempt may take at most and
    [retries_left] what is left of the retry budget for it; [pending] holds
    the requested output times not reached yet and [outputs] the states
    reported so far; [steps], [rejected] and [newton_iterations] are the
    diagnostics; [steady] is the convergence flag; [failure] is the error of
    a run that ended in [Failed]. *)
Record Driver : Type :=
  { phase : Phase;
    t : realtype;
    x : vec;
    h : realtype;
    retries_left : nat;
    pending : list realtype;
    outputs : list (realtype * vec);
    steps : nat;
    rejected : nat;
    newton_iterations : nat;
    steady : bool;
    failure : option Error }.

(** Modelled from the spec: the SteadyStateResult, "final state, a
    convergence flag, and the number of iterations". *)
Record SteadyStateResult : Type :=
  { final_state : vec;
    converged : bool;
    iterations : nat }.

(** One run: a solver library, a model, a configuration, the engine's
    bounds, the parameter vector [p], and the initial time and the output
    times the caller asks for. *)
Record Run : Type :=
  { library : SolverLibrary;
    model : ModelContract;
    config : Config;
    policy : Policy;
    parameters : vec;
    initial_time : realtype;
    output_times : list realtype }.

Section Run.

Variable r : Run.

#[local] Abbreviation lib := (library r).
#[local] Abbreviation m := (model r).
#[local] Abbreviation cfg := (config r).
#[local] Abbreviation pol := (policy r).
#[local] Abbreviation p := (parameters r).

(** Modelled from the spec: the "weighted-RMS norm of dx/dt", weighted
    "relative to the current state magnitude" with the two tolerances of
    the configuration. *)
Definition wrms_norm (dx xs : vec) : realtype :=
  let weight xi :=
    (absolute_tolerance cfg + relative_tolerance cfg * abs xi)%float in
  let terms :=
    zip_with (fun d xi => (d / weight xi * (d / weight xi))%float) dx xs in
  sqrt (foldr PrimFloat.add 0%float terms
        / foldr (fun _ n => (n + 1)%float) 0%float terms)%float.

(** Modelled from the spec: the convergence test, the norm "falls below a
    convergence threshold"; with the weights above the threshold is 1. A
    state at which the right-hand side cannot be evaluated does not pass
    the test. *)
Definition is_steady (tn : realtype) (xs : vec) : bool :=
  match rhs m tn xs p with
  | Ok dx => (wrms_norm dx xs <? 1)%float
  | Err _ => false
  end.

(** Modelled from the spec: one iteration of the root-finding strategy,
    "solving rhs(t,x,p)=0 directly via Newton iteration using the Linear
    Algebra Adapter". *)
Definition newton_step (tn : realtype) (xs : vec) : result vec :=
  f ← rhs m tn xs p;
  dx ← linear_solve lib (jacobian m tn xs p) f;
  Ok (zip_with PrimFloat.sub xs dx).

(** Modelled from the spec: local recovery in the Newton solve. An
    iteration that cannot be done fails with one of the two errors the spec
    names recoverable ([EvaluationError] of the right-hand side,
    [SingularMatrixError] of the factorization): the iterate is kept and
    the iteration is tried again. *)
Definition newton_next (tn : realtype) (xs : vec) : vec :=
  match newton_step tn xs with
  | Ok xs' => xs'
  | Err _ => xs
  end.

(** The iterate after [k] Newton iterations from [xs]. *)
Fixpoint newton_iterate (k : nat) (tn : realtype) (xs : vec) : vec :=
  match k with
  | O => xs
  | S k' => newton_iterate k' tn (newton_next tn xs)
  end.

(** Modelled from the spec: the Newton solve under its iteration budget. It
    gives the last iterate, the number of iterations tried, the number of
    them that were rejected, and [None] when the last iterate passes the
    convergence test. Every iteration tried, rejected or not, counts
    against the budget, which bounds the retries; when it is used up the
    solve fails, and its one error is [NonConvergenceError], "steady-state
    or Newton iteration exhausted". *)
Fixpoint newton_solve (budget k rej : nat) (tn : realtype) (xs : vec)
    : vec * nat * nat * option Error :=
  if is_steady tn xs then (xs, k, rej, None)
  else match budget with
       | O => (xs, k, rej, Some NonConvergenceError)
       | S budget' =>
           match newton_step tn xs with
           | Ok xs' => newton_solve budget' (S k) rej tn xs'
           | Err _ => newton_solve budget' (S k) (S rej) tn xs
           end
       end.

(** The driver before its first transition. *)
Definition start : Driver :=
  {| phase := Initializing; t := 0%float; x := []; h := 0%float;
     retries_left := 0; pending := []; outputs := []; steps := 0;
     rejected := 0; newton_iterations := 0; steady := false;
     failure := None |}.

(** Modelled from the spec: [Initializing] "loads x0" and configures the
    run. Nothing of the state before it is kept. With the root-finding
    strategy requested directly the run goes to the steady-state check at
    once; otherwise it starts stepping. *)
Definition initializing (d : Driver) : Driver :=
  {| phase := match steady_state_mode cfg with
              | newton => SteadyStateCheck
              | integration | off => Stepping
              end;
     t := initial_time r; x := initial_state m p; h := initial_step pol;
     retries_left := retry_budget pol; pending := output_times r;
     outputs := []; steps := 0; rejected := 0; newton_iterations := 0;
     steady := false; failure := None |}.

(** Modelled from the spec: [Failed], "an IntegrationFailure carrying the
    last reached (t, x)"; a steady-state failure is reported "with last
    iterate". *)
Definition fail_with (e : Error) (xs : vec) (k : nat) (d : Driver)
    : Driver :=
  {| phase := Failed; t := t d; x := xs; h := h d;
     retries_left := retries_left d; pending := pending d;
     outputs := outputs d; steps := steps d; rejected := rejected d;
     newton_iterations := k; steady := false; failure := Some e |}.

(** Modelled from the spec: a rejected step. The state is kept, the step is
    shrunk, one retry of the budget is used and the rejection is counted
    in the diagnostics. *)
Definition reject (d : Driver) : Driver :=
  {| phase := Stepping; t := t d; x := x d; h := shrink_step pol (h d);
     retries_left := pred (retries_left d); pending := pending d;
     outputs := outputs d; steps := steps d; rejected := S (rejected d);
     newton_iterations := newton_iterations d; steady := steady d;
     failure := failure d |}.

(** Modelled from the spec: an accepted step to [(tn, xn)]. Every requested
    output time the step has reached is reported, from the solver's dense
    output. When steady-state output is requested the convergence test
    follows "after each accepted step". *)
Definition accept (tn : realtype) (xn : vec) (hn : realtype) (d : Driver)
    : Driver :=
  let reached tout := (tout <=? tn)%float in
  {| phase := match steady_state_mode cfg with
              | off => Stepping
              | integration | newton => SteadyStateCheck
              end;
     t := tn; x := xn; h := hn; retries_left := retry_budget pol;
     pending := filter (fun tout => reached tout = false) (pending d);
     outputs :=
       outputs d ++
       map (fun tout => (tout, interpolate lib (t d) (x d) tn xn tout))
           (filter (fun tout => reached tout = true) (pending d));
     steps := S (steps d); rejected := rejected d;
     newton_iterations := newton_iterations d; steady := steady d;
     failure := failure d |}.

(** The end of a run that has nothing left to do. *)
Definition finish (xs : vec) (k : nat) (st : bool) (d : Driver) : Driver :=
  {| phase := Finished; t := t d; x := xs; h := h d;
     retries_left := retries_left d; pending := pending d;
     outputs := outputs d; steps := steps d; rejected := rejected d;
     newton_iterations := k; steady := st; failure := failure d |}.

(** The driver with [n] more rejected iterations in its diagnostics. *)
Definition count_rejected (n : nat) (d : Driver) : Driver :=
  {| phase := phase d; t := t d; x := x d; h := h d;
     retries_left := retries_left d; pending := pending d;
     outputs := outputs d; steps := steps d; rejected := rejected d + n;
     newton_iterations := newton_iterations d; steady := steady d;
     failure := failure d |}.

(** The driver in another phase, all else unchanged. *)
Definition goto (ph : Phase) (d : Driver) : Driver :=
  {| phase := ph; t := t d; x := x d; h := h d;
     retries_left := retries_left d; pending := pending d;
     outputs := outputs d; steps := steps d; rejected := rejected d;
     newton_iterations := newton_iterations d; steady := steady d;
     failure := failure d |}.

(** What the solver library answers to the next attempt of the driver. *)
Definition attempt (d : Driver)
    : result (realtype * vec * realtype) :=
  advance lib (fun tn xs => rhs m tn xs p) (h d) (t d) (x d).

(** A run with no steady-state output is over when every requested output
    time is reached. *)
Definition all_outputs_reached (d : Driver) : bool :=
  match steady_state_mode cfg, pending d with
  | off, [] => true
  | _, _ => false
  end.

(** Modelled from the spec: [Stepping]. The run is [Finished] when "all
    requested output times [are] reached"; it is [Failed] past the "maximum
    step count" (with steady-state output requested, the step count is the
    budget past which the steady-state check escalates) and on an error of
    the solver that is not recoverable or that comes "after retry budget
    exhaustion"; a recoverable error with budget left is a rejected step. *)
Definition stepping (d : Driver) : Driver :=
  if all_outputs_reached d then finish (x d) (newton_iterations d) (steady d) d
  else if decide (max_steps cfg <= steps d)%nat
       then match steady_state_mode cfg with
            | off => fail_with IntegrationFailure (x d) (newton_iterations d) d
            | integration | newton => goto SteadyStateCheck d
            end
  else match attempt d with
       | Ok (tn, xn, hn) => accept tn xn hn d
       | Err e =>
           if recoverable e && bool_decide (0 < retries_left d)%nat
           then reject d
           else fail_with IntegrationFailure (x d) (newton_iterations d) d
       end.

(** Modelled from the spec: [SteadyStateCheck] "stops when the norm falls
    below a convergence threshold [...] or escalates to a Newton-style
    direct steady-state solve if time-integration convergence stalls past a
    step-count budget"; with the root-finding strategy requested directly
    the Newton solve is tried at once. The solve that uses up its budget
    fails with [NonConvergenceError], reported "with last iterate"; the
    iterations it rejected are counted with the rejected steps. *)
Definition steady_state_check (d : Driver) : Driver :=
  if is_steady (t d) (x d) then finish (x d) (newton_iterations d) true d
  else
    let direct := match steady_state_mode cfg with
                  | newton => true
                  | integration | off => false
                  end in
    if direct || bool_decide (max_steps cfg <= steps d)%nat
    then match newton_solve (newton_budget pol) 0 0 (t d) (x d) with
         | (xs, k, rej, None) => finish xs k true (count_rejected rej d)
         | (xs, k, rej, Some e) => fail_with e xs k (count_rejected rej d)
         end
    else goto Stepping d.

(** Modelled from the spec: one transition of the driver. The model
    declares no root function, so no step leads to [EventPending]; from
    there the driver has no event to apply and steps on. [Finished] and
    [Failed] are final. *)
Definition step (d : Driver) : Driver :=
  match phase d with
  | Initializing => initializing d
  | Stepping => stepping d
  | EventPending => goto Stepping d
  | SteadyStateCheck => steady_state_check d
  | Finished | Failed => d
  end.

(** The driver after [n] transitions. *)
Fixpoint run (n : nat) (d : Driver) : Driver :=
  match n with
  | O => d
  | S n' => run n' (step d)
  end.

(** Modelled from the spec: what the Steady-State Solver reports of a run
    that has ended: the SteadyStateResult, or the error. A run that has not
    ended reports nothing yet. *)
Definition report (d : Driver) : option (result SteadyStateResult) :=
  match phase d with
  | Finished =>
      Some (Ok {| final_state := x d; converged := steady d;
                  iterations := steps d + newton_iterations d |})
  | Failed => Some (Err (default IntegrationFailure (failure d)))
  | Initializing | Stepping | EventPending | SteadyStateCheck => None
  end.

(** Modelled from the spec: the Steady-State Solver, which steps the driver
    from a fresh run; [fuel] bounds the transitions it waits for. *)
Definition steady_state (fuel : nat) : option (result SteadyStateResult) :=
  report (run fuel start).

(** What holds of every state of a run from [start]: a state flagged as
    steady is a final one that passes the convergence test. *)
Definition steady_is_converged (d : Driver) : Prop :=
  steady d = true ->
  phase d = Finished /\ is_steady (t d) (x d) = true.

(** With steady-state output requested, a run ends in [Finished] only with
    the flag set. *)
Definition finished_is_steady (d : Driver) : Prop :=
  phase d = Finished -> steady d = true.

(** An error is recorded only in [Failed], and it is one of the two fatal
    errors of the driver and of the steady-state solver; a run that failed
    with [NonConvergenceError] holds a state that does not pass the
    convergence test and is not flagged as steady. *)
Definition failure_is_final (d : Driver) : Prop :=
  failure d = None
  \/ (phase d = Failed
      /\ (failure d = Some IntegrationFailure
          \/ (failure d = Some NonConvergenceError
              /\ steady d = false
              /\ is_steady (t d) (x d) = false))).

End Run.

(** ** A solver library and two models to run the engine on *)

(** [ys + a * xs], cell by cell. *)
Definition axpy (a : realtype) (xs ys : vec) : vec :=
  zip_with (fun xi yi => (yi + a * xi)%float) xs ys.

(** Heun's method as "advance by adaptive step": the slope at the start, the
    slope at the predicted end, and their mean. An error of the callback is
    the error of the attempt. It proposes the same step again. *)
Definition heun_advance (f : realtype -> vec -> result vec)
    (hh tn : realtype) (xs : vec) : result (realtype * vec * realtype) :=
  k1 ← f tn xs;
  k2 ← f (tn + hh)%float (axpy hh k1 xs);
  Ok ((tn + hh)%float,
      axpy (hh / 2)%float (zip_with PrimFloat.add k1 k2) xs,
      hh).

(** Dense output on the line between two accepted states. *)
Definition linear_interpolate (ta : realtype) (xa : vec) (tb : realtype)
    (xb : vec) (tq : realtype) : vec :=
  let w := ((tq - ta) / (tb - ta))%float in
  zip_with (fun a b => (a + w * (b - a))%float) xa xb.

(** The determinant of a dense 3x3 buffer. *)
Definition det3 (a : vec) : realtype :=
  match a with
  | [a00; a10; a20; a01; a11; a21; a02; a12; a22] =>
      (a00 * (a11 * a22 - a12 * a21)
       - a01 * (a10 * a22 - a12 * a20)
       + a02 * (a10 * a21 - a11 * a20))%float
  | _ => nan
  end.

(** The buffer [a] with column [j] replaced by [b]. *)
Definition replace_column (a : vec) (j : nat) (b : vec) : vec :=
  take (j * 3) a ++ b ++ drop (j * 3 + 3) a.

(** Cramer's rule for a dense 3x3 system; a determinant that is zero or not
    finite is reported as [SingularMatrixError]. *)
Definition cramer3 (J : JacobianHandle) (b : vec) : result vec :=
  match J with
  | DenseJ 3 a =>
      let d := det3 a in
      if (d =? 0)%float || negb (is_finite d) then Err SingularMatrixError
      else Ok (map (fun j => (det3 (replace_column a j b) / d)%float)
                   (seq 0 3))
  | DenseJ _ _ | SparseJ _ _ _ => Err SingularMatrixError
  end.

Definition heun_library : SolverLibrary :=
  {| advance := heun_advance; interpolate := linear_interpolate;
     linear_solve := cramer3 |}.


(** An oscillator with no fixed point: [x' = -y], [y' = x + z],
    [z' = 2 y^2 + x z - 3/8]. At a fixed point [y = 0] and [z = -x], and
    then [z' = - x^2 - 3/8] is negative. *)
Definition oscillator_no_fixed_point : ModelContract :=
  {| rhs_fn := fun _ xs _ =>
       match xs with
       | [x0; x1; x2] =>
           [(- x1)%float; (x0 + x2)%float;
            (2 * x1 * x1 + x0 * x2 - 0.375)%float]
       | _ => []
       end;
     jacobian := fun _ xs _ =>
       match xs with
       | [x0; x1; x2] =>
           DenseJ 3 [0; 1; x2;  (-1); 0; (4 * x1);  0; 1; x0]%float
       | _ => DenseJ 0 []
       end;
     initial_state := fun _ => [0; 0.5; 1]%float |}.

(** A drift with no fixed point and a Jacobian that is zero everywhere:
    [x' = y' = z' = -1]. No Newton iteration can be done on it. *)
Definition constant_drift : ModelContract :=
  {| rhs_fn := fun _ xs _ => map (fun _ => (-1)%float) xs;
     jacobian := fun _ _ _ => DenseJ 3 (replicate 9 0%float);
     initial_state := fun _ => [1; 1; 1]%float |}.

(** Halving a rejected step, three retries, five Newton iterations. *)
Definition halving (first_step : realtype) : Policy :=
  {| retry_budget := 3; shrink_step := fun hh => (hh / 2)%float;
     initial_step := first_step; newton_budget := 5 |}.


(** The steady-state test: the oscillator, integration-based, with a budget
    of twenty steps. *)
Definition oscillator_test : Run :=
  {| library := heun_library; model := oscillator_no_fixed_point;
     config := {| absolute_tolerance := 0x1p-30%float;
                  relative_tolerance := 0x1p-20%float;
                  max_steps := 20; steady_state_mode := integration |};
     policy := halving 0.0625%float; parameters := [];
     initial_time := 0%float; output_times := [] |}.

(** The drift, integration-based, with a budget of twenty steps. *)
Definition drift_test : Run :=
  {| library := heun_library; model := constant_drift;
     config := {| absolute_tolerance := 0x1p-30%float;
                  relative_tolerance := 0x1p-20%float;
                  max_steps := 20; steady_state_mode := integration |};
     policy := halving 0.0625%float; parameters := [];
     initial_time := 0%float; output_times := [] |}.



(** ** Facts about runs *)

Section Facts.

Variable r : Run.

Lemma run_add (a b : nat) (d : Driver) :
  run r (a + b) d = run r b (run r a d).
Proof.
  revert d. induction a as [|a IH]; intros d; [reflexivity|].
  cbn [Nat.add run]. apply IH.
Qed.

(** [Finished] and [Failed] are final. *)
Lemma run_final (n : nat) (d : Driver) :
  phase d = Finished \/ phase d = Failed -> run r n d = d.
Proof.
  intros Hd. induction n as [|n IH]; [reflexivity|].
  cbn [run]. replace (step r d) with d; [exact IH|].
  unfold step. destruct Hd as [-> | ->]; reflexivity.
Qed.










(** The Newton solve reports no error only for an iterate that passes the
    convergence test. *)
Lemma newton_solve_sound (budget : nat) :
  forall (k rej : nat) (tn : realtype) (xs xs' : vec) (k' rej' : nat),
    newton_solve r budget k rej tn xs = (xs', k', rej', None) ->
    is_steady r tn xs' = true.
Proof.
  induction budget as [|budget IH]; intros k rej tn xs xs' k' rej' Hsolve;
    cbn [newton_solve] in Hsolve;
    destruct (is_steady r tn xs) eqn:Htest; try congruence.
  destruct (newton_step r tn xs) as [xn|e];
    apply (IH _ _ _ _ _ _ _ Hsolve).
Qed.

(** The one error of the Newton solve is [NonConvergenceError], and the
    iterate it is reported with does not pass the convergence test. *)
Lemma newton_solve_error (budget : nat) :
  forall (k rej : nat) (tn : realtype) (xs xs' : vec) (k' rej' : nat)
         (e : Error),
    newton_solve r budget k rej tn xs = (xs', k', rej', Some e) ->
    e = NonConvergenceError /\ is_steady r tn xs' = false.
Proof.
  induction budget as [|budget IH]; intros k rej tn xs xs' k' rej' e Hsolve;
    cbn [newton_solve] in Hsolve;
    destruct (is_steady r tn xs) eqn:Htest; try congruence.
  - injection Hsolve as <- _ _ <-. split; [reflexivity|exact Htest].
  - destruct (newton_step r tn xs) as [xn|e'];
      apply (IH _ _ _ _ _ _ _ _ Hsolve).
Qed.

(** When no iterate within the budget passes the test, the Newton solve
    ends on the last of them with [NonConvergenceError]. *)
Lemma newton_solve_exhausts (budget : nat) :
  forall (k rej : nat) (tn : realtype) (xs : vec),
    (forall j : nat,
        (j <= budget)%nat ->
        is_steady r tn (newton_iterate r j tn xs) = false) ->
    exists rej' : nat,
      newton_solve r budget k rej tn xs
      = (newton_iterate r budget tn xs, (k + budget)%nat, rej',
         Some NonConvergenceError).
Proof.
  induction budget as [|budget IH]; intros k rej tn xs Hiter.
  - pose proof (Hiter 0%nat ltac:(lia)) as Htest. cbn in Htest.
    exists rej. cbn [newton_iterate newton_solve]. rewrite Htest.
    replace (k + 0)%nat with k by lia. reflexivity.
  - pose proof (Hiter 0%nat ltac:(lia)) as Htest. cbn in Htest.
    assert (Hnext : forall j : nat,
               (j <= budget)%nat ->
               is_steady r tn
                 (newton_iterate r j tn (newton_next r tn xs)) = false).
    { intros j Hj. apply (Hiter (S j)). lia. }
    cbn [newton_iterate newton_solve]. rewrite Htest.
    unfold newton_next in *.
    destruct (newton_step r tn xs) as [xn|e];
      [destruct (IH (S k) rej tn xn Hnext) as [rej' Hsolve]
      |destruct (IH (S k) (S rej) tn xs Hnext) as [rej' Hsolve]];
      exists rej'; rewrite Hsolve; do 3 f_equal; lia.
Qed.


Lemma step_steady_is_converged (d : Driver) :
  steady_is_converged r d -> steady_is_converged r (step r d).
Proof.
  intros Hinv. unfold step.
  destruct (phase d) eqn:Hph; try exact Hinv.
  - intros Hst. discriminate Hst.
  - assert (Hns : steady d = false).
    { apply not_true_is_false. intros Hst.
      destruct (Hinv Hst) as [Hfin _]. congruence. }
    unfold stepping, steady_is_converged.
    destruct (all_outputs_reached r d); [cbn; congruence|].
    destruct (decide _);
      [destruct (steady_state_mode (config r)); cbn; congruence|].
    destruct (attempt r d) as [[[tn xn] hn]|e]; [cbn; congruence|].
    destruct (recoverable e && _); cbn; congruence.
  - assert (Hns : steady d = false).
    { apply not_true_is_false. intros Hst.
      destruct (Hinv Hst) as [Hfin _]. congruence. }
    unfold steady_is_converged. cbn. congruence.
  - unfold steady_state_check, steady_is_converged.
    destruct (is_steady r (t d) (x d)) eqn:Htest; [cbn; auto|].
    destruct (_ || _).
    + destruct (newton_solve _ _ _ _ _ _) as [[[xs k] rej] [e|]] eqn:Hsolve;
        [cbn; congruence|].
      cbn. intros _. split; [reflexivity|].
      exact (newton_solve_sound _ _ _ _ _ _ _ _ Hsolve).
    + assert (Hns : steady d = false).
      { apply not_true_is_false. intros Hst.
        destruct (Hinv Hst) as [Hfin _]. congruence. }
      cbn. congruence.
Qed.

Lemma run_steady_is_converged (n : nat) (d : Driver) :
  steady_is_converged r d -> steady_is_converged r (run r n d).
Proof.
  revert d. induction n as [|n IH]; intros d Hinv; [exact Hinv|].
  cbn [run]. apply IH, step_steady_is_converged, Hinv.
Qed.

Lemma step_finished_is_steady (d : Driver) :
  steady_state_mode (config r) <> off ->
  finished_is_steady d -> finished_is_steady (step r d).
Proof.
  intros Hmode Hinv. unfold step.
  destruct (phase d) eqn:Hph; try exact Hinv.
  - unfold finished_is_steady. cbn.
    destruct (steady_state_mode (config r)); congruence.
  - unfold stepping, finished_is_steady.
    destruct (all_outputs_reached r d) eqn:Hout.
    { unfold all_outputs_reached in Hout.
      destruct (steady_state_mode (config r)); congruence. }
    destruct (decide _);
      [destruct (steady_state_mode (config r)); cbn; congruence|].
    destruct (attempt r d) as [[[tn xn] hn]|e];
      [cbn; destruct (steady_state_mode (config r)); congruence|].
    destruct (recoverable e && _); cbn; congruence.
  - unfold finished_is_steady. cbn. congruence.
  - unfold steady_state_check, finished_is_steady.
    destruct (is_steady r (t d) (x d)); [cbn; congruence|].
    destruct (_ || _); [|cbn; congruence].
    destruct (newton_solve _ _ _ _ _ _) as [[[xs k] rej] [e|]];
      cbn; congruence.
Qed.

Lemma run_finished_is_steady (n : nat) (d : Driver) :
  steady_state_mode (config r) <> off ->
  finished_is_steady d -> finished_is_steady (run r n d).
Proof.
  intros Hmode. revert d.
  induction n as [|n IH]; intros d Hinv; [exact Hinv|].
  cbn [run]. apply IH, step_finished_is_steady; assumption.
Qed.

Lemma step_failure_is_final (d : Driver) :
  failure_is_final r d -> failure_is_final r (step r d).
Proof.
  intros Hinv. unfold step.
  destruct (phase d) eqn:Hph; try exact Hinv;
    try (left; reflexivity);
    (destruct Hinv as [Hnone|[Hfailed _]]; [|congruence]).
  - unfold stepping.
    destruct (all_outputs_reached r d); [left; exact Hnone|].
    destruct (decide _);
      [destruct (steady_state_mode (config r));
         first [left; exact Hnone | right; split; [|left]; reflexivity]|].
    destruct (attempt r d) as [[[tn xn] hn]|e]; [left; exact Hnone|].
    destruct (recoverable e && _);
      [left; exact Hnone | right; split; [|left]; reflexivity].
  - left. exact Hnone.
  - unfold steady_state_check.
    destruct (is_steady r (t d) (x d)); [left; exact Hnone|].
    destruct (_ || _); [|left; exact Hnone].
    destruct (newton_solve _ _ _ _ _ _) as [[[xs k] rej] [e|]] eqn:Hsolve;
      [|left; exact Hnone].
    destruct (newton_solve_error _ _ _ _ _ _ _ _ _ Hsolve) as [-> Htest].
    right. split; [reflexivity|]. right. cbn. auto.
Qed.

Lemma run_failure_is_final (n : nat) (d : Driver) :
  failure_is_final r d -> failure_is_final r (run r n d).
Proof.
  revert d. induction n as [|n IH]; intros d Hinv; [exact Hinv|].
  cbn [run]. apply IH, step_failure_is_final, Hinv.
Qed.




(** C3. A run of the Steady-State Solver never reports an unconverged
    state as steady: a result flagged as converged holds a state that passes
    the convergence test at the final time of the run, and with
    steady-state output requested every result is flagged so. The only
    errors a run is reported with are [NonConvergenceError] and
    [IntegrationFailure], and a run that fails with [NonConvergenceError]
    holds a state that does not pass the test and is not flagged. When the
    run comes to the steady-state check with its budget used up (the step
    count past [max_steps], or the Newton strategy requested directly) and
    the norm not below the threshold, the Newton solve is all that is left:
    for every fuel that lets the run get there the solver either reports a
    converged result or fails with [NonConvergenceError], and it fails with
    [NonConvergenceError], holding the last iterate, whenever no Newton
    iterate within the Newton budget passes the test, whether or not the
    iterations can be done. *)
Theorem budget_exceeded_is_NonConvergenceError :
  (forall (fuel : nat) (res : SteadyStateResult),
      steady_state r fuel = Some (Ok res) ->
      converged res = true ->
      is_steady r (t (run r fuel start)) (final_state res) = true)
  /\ (steady_state_mode (config r) <> off ->
      forall (fuel : nat) (res : SteadyStateResult),
        steady_state r fuel = Some (Ok res) -> converged res = true)
  /\ (forall (fuel : nat) (e : Error),
        steady_state r fuel = Some (Err e) ->
        e = IntegrationFailure
        \/ (e = NonConvergenceError
            /\ steady (run r fuel start) = false
            /\ is_steady r (t (run r fuel start)) (x (run r fuel start))
               = false))
  /\ (forall k : nat,
        phase (run r k start) = SteadyStateCheck ->
        is_steady r (t (run r k start)) (x (run r k start)) = false ->
        steady_state_mode (config r) = newton
        \/ (max_steps (config r) <= steps (run r k start))%nat ->
        forall fuel : nat,
          (k < fuel)%nat ->
          (steady_state r fuel = Some (Err NonConvergenceError)
           \/ exists res : SteadyStateResult,
                steady_state r fuel = Some (Ok res)
                /\ converged res = true)
          /\ ((forall j : nat,
                  (j <= newton_budget (policy r))%nat ->
                  is_steady r (t (run r k start))
                    (newton_iterate r j (t (run r k start))
                       (x (run r k start)))
                  = false) ->
              steady_state r fuel = Some (Err NonConvergenceError)
              /\ steady (run r fuel start) = false
              /\ x (run r fuel start)
                 = newton_iterate r (newton_budget (policy r))
                     (t (run r k start)) (x (run r k start)))).
Proof.
  assert (Hinv : forall fuel, steady_is_converged r (run r fuel start)).
  { intros fuel. apply run_steady_is_converged. intros Hst. discriminate Hst. }
  assert (Hfail : forall fuel, failure_is_final r (run r fuel start)).
  { intros fuel. apply run_failure_is_final. left. reflexivity. }
  split; [|split; [|split]].
  - intros fuel res Hres Hconv. unfold steady_state, report in Hres.
    destruct (phase (run r fuel start)) eqn:Hph; try discriminate Hres.
    injection Hres as <-. cbn in Hconv |- *. apply (Hinv fuel Hconv).
  - intros Hmode fuel res Hres. unfold steady_state, report in Hres.
    destruct (phase (run r fuel start)) eqn:Hph; try discriminate Hres.
    injection Hres as <-. cbn.
    apply (run_finished_is_steady fuel start Hmode); [|exact Hph].
    intros Hst. discriminate Hst.
  - intros fuel e Hres. unfold steady_state, report in Hres.
    destruct (phase (run r fuel start)) eqn:Hph; try discriminate Hres.
    injection Hres as <-.
    destruct (Hfail fuel) as [Hnone|[_ [HIF|(HNC & Hflag & Htest)]]].
    + rewrite Hnone. left. reflexivity.
    + rewrite HIF. left. reflexivity.
    + rewrite HNC. right. auto.
  - intros k Hph Htest Hbudget fuel Hfuel.
    set (d := run r k start) in *.
    assert (Hesc : step r d
                   = match newton_solve r (newton_budget (policy r)) 0 0
                             (t d) (x d) with
                     | (xs, n, rej, None) =>
                         finish xs n true (count_rejected rej d)
                     | (xs, n, rej, Some e) =>
                         fail_with e xs n (count_rejected rej d)
                     end).
    { unfold step. rewrite Hph. unfold steady_state_check. rewrite Htest.
      replace (_ || _) with true; [reflexivity|].
      destruct Hbudget as [-> | Hmax]; [reflexivity|].
      rewrite (bool_decide_eq_true_2 _ Hmax). symmetry. apply orb_true_r. }
    assert (Hrun : run r fuel start = step r d).
    { replace fuel with (k + S (fuel - S k))%nat by lia.
      rewrite run_add. fold d. cbn [run]. apply run_final.
      rewrite Hesc.
      destruct (newton_solve _ _ _ _ _ _) as [[[xs n] rej] [e|]];
        [right|left]; reflexivity. }
    unfold steady_state. rewrite Hrun, Hesc. split.
    + destruct (newton_solve _ _ _ _ _ _) as [[[xs n] rej] [e|]] eqn:Hsolve.
      * destruct (newton_solve_error _ _ _ _ _ _ _ _ _ Hsolve) as [-> _].
        left. reflexivity.
      * right. eexists. split; reflexivity.
    + intros Hiter.
      destruct (newton_solve_exhausts (newton_budget (policy r)) 0 0
                  (t d) (x d) Hiter) as [rej Hsolve].
      rewrite Hsolve. cbn. repeat split; reflexivity.
Qed.

End Facts.

(** ** The tests, run *)


(** The steady-state test: the twenty steps of the budget leave the
    oscillator away from any steady state, the five Newton iterations of the
    fallback do not pass the test either, and the solver fails with
    [NonConvergenceError]. The drift, on which no Newton iteration can be
    done, fails with [NonConvergenceError] as well, its five iterations
    rejected. *)
Lemma oscillator_test_does_not_converge :
  steady_state oscillator_test 100 = Some (Err NonConvergenceError)
  /\ steady (run oscillator_test 100 start) = false
  /\ steady_state drift_test 100 = Some (Err NonConvergenceError)
  /\ rejected (run drift_test 100 start) = 5%nat.
Proof.
  destruct (proj2 (proj2 (proj2 (budget_exceeded_is_NonConvergenceError
                                   oscillator_test))) 40%nat)
    with (fuel := 100%nat) as [_ Hosc];
    [vm_compute; reflexivity | vm_compute; reflexivity
    | right; vm_compute; lia | lia |].
  destruct Hosc as (Hres & Hflag & _).
  { intros j Hj.
    do 6 (destruct j as [|j]; [vm_compute; reflexivity|]).
    cbn in Hj. lia. }
  destruct (proj2 (proj2 (proj2 (budget_exceeded_is_NonConvergenceError
                                   drift_test))) 40%nat)
    with (fuel := 100%nat) as [_ Hdrift];
    [vm_compute; reflexivity | vm_compute; reflexivity
    | right; vm_compute; lia | lia |].
  destruct Hdrift as (Hres' & _ & _).
  { intros j Hj.
    do 6 (destruct j as [|j]; [vm_compute; reflexivity|]).
    cbn in Hj. lia. }
  split; [exact Hres|]. split; [exact Hflag|]. split; [exact Hres'|].
  vm_compute. reflexivity.
Defined.

End Engine.

(* ===================================================================== *)
(** * model_robertson_M.cpp: the buffer a caller must provide *)
(* ===================================================================== *)

Module RobertsonBuffer.

Import Robertson.

(** A buffer of nine cells whose cells 0 and 4 hold stale values and whose
    other cells are zero. *)
Definition stale_diagonal : buffer :=
  [7; 0; 0;  0; 7; 0;  0; 0; 0]%float.

(** A buffer too short for the second assignment of the function. *)
Definition four_cells : buffer := [0; 0; 0; 0]%float.

(** X1. The last cell written is cell 4: the call is defined exactly on the
    buffers that hold that cell, and a defined call keeps the length of the
    buffer. *)
Theorem M_model_robertson_defined_iff :
  forall (M : buffer) (t : realtype) (x p k : buffer),
    (is_Some (M_model_robertson M t x p k) <-> (5 <= length M)%nat)
    /\ (forall M' : buffer,
          M_model_robertson M t x p k = Some M' -> length M' = length M)
    /\ M_model_robertson four_cells t x p k = None.
Proof.
  intros M t x p k. split; [split|split].
  - intros [M' HM'].
    destruct M as [|m0 [|m1 [|m2 [|m3 [|m4 M]]]]];
      try (vm_compute in HM'; discriminate HM').
    cbn [length]. lia.
  - intros Hlen. rewrite M_model_robertson_writes by exact Hlen. eauto.
  - intros M' HM'.
    destruct (decide (5 <= length M)%nat) as [Hlen|Hshort].
    + rewrite M_model_robertson_writes in HM' by exact Hlen.
      injection HM' as <-. rewrite !length_insert. reflexivity.
    + destruct M as [|m0 [|m1 [|m2 [|m3 [|m4 M]]]]];
        try (vm_compute in HM'; discriminate HM').
      cbn [length] in Hshort. lia.
  - reflexivity.
Qed.

(** X2. A second call on the buffer a first call has left changes nothing,
    whatever the inputs of either call. *)
Theorem M_model_robertson_idempotent :
  forall (M M' : buffer) (t t' : realtype) (x p k x' p' k' : buffer),
    M_model_robertson M t x p k = Some M' ->
    M_model_robertson M' t' x' p' k' = Some M'.
Proof.
  intros M M' t t' x p k x' p' k' HM'.
  assert (Hlen : (5 <= length M)%nat).
  { destruct M as [|m0 [|m1 [|m2 [|m3 [|m4 M]]]]];
      try (vm_compute in HM'; discriminate HM').
    cbn [length]. lia. }
  rewrite M_model_robertson_writes in HM' by exact Hlen.
  injection HM' as <-.
  rewrite M_model_robertson_writes by (rewrite !length_insert; exact Hlen).
  f_equal. apply list_eq. intros i.
  destruct (decide (i = 4%nat)) as [->|H4].
  { rewrite !list_lookup_insert_eq by (rewrite ?length_insert; lia).
    reflexivity. }
  rewrite (list_lookup_insert_ne _ 4 i) by congruence.
  destruct (decide (i = 0%nat)) as [->|H0].
  { rewrite list_lookup_insert_eq by (rewrite ?length_insert; lia).
    rewrite (list_lookup_insert_ne _ 4 0) by lia.
    rewrite list_lookup_insert_eq by lia. reflexivity. }
  rewrite (list_lookup_insert_ne _ 0 i) by congruence. reflexivity.
Qed.

Lemma M_model_robertson_idempotent_on_zeros :
  M_model_robertson diag110 0%float [] [] [] = Some diag110.
Proof.
  apply (M_model_robertson_idempotent (zeros 9) diag110
           1%float 0%float [] [] [] [] [] []).
  reflexivity.
Defined.

(** X3. The function writes no zero: on a buffer of nine cells the call leaves
    diag(1, 1, 0) exactly when every cell other than 0 and 4 held zero
    before it. What cells 0 and 4 held is of no account. *)
Theorem M_model_robertson_needs_zeroed_buffer :
  forall (M : buffer) (t : realtype) (x p k : buffer),
    length M = 9%nat ->
    (M_model_robertson M t x p k = Some diag110 <->
     forall i : nat,
       (i < 9)%nat -> i <> 0%nat -> i <> 4%nat -> M !! i = Some 0%float).
Proof.
  intros M t x p k Hlen.
  destruct M as [|m0 [|m1 [|m2 [|m3 [|m4 [|m5 [|m6 [|m7 [|m8 [|m9 M]]]]]]]]]];
    try discriminate Hlen.
  change (M_model_robertson [m0; m1; m2; m3; m4; m5; m6; m7; m8] t x p k)
    with (Some [1%float; m1; m2; m3; 1%float; m5; m6; m7; m8]).
  unfold diag110. split.
  - intros Heq. injection Heq as -> -> -> -> -> -> ->.
    intros i Hi H0 H4.
    do 9 (destruct i as [|i]; [first [reflexivity | congruence]|]). lia.
  - intros Hcells.
    pose proof (Hcells 1%nat ltac:(lia) ltac:(lia) ltac:(lia)) as H1.
    pose proof (Hcells 2%nat ltac:(lia) ltac:(lia) ltac:(lia)) as H2.
    pose proof (Hcells 3%nat ltac:(lia) ltac:(lia) ltac:(lia)) as H3.
    pose proof (Hcells 5%nat ltac:(lia) ltac:(lia) ltac:(lia)) as H5.
    pose proof (Hcells 6%nat ltac:(lia) ltac:(lia) ltac:(lia)) as H6.
    pose proof (Hcells 7%nat ltac:(lia) ltac:(lia) ltac:(lia)) as H7.
    pose proof (Hcells 8%nat ltac:(lia) ltac:(lia) ltac:(lia)) as H8.
    cbn in H1, H2, H3, H5, H6, H7, H8. congruence.
Qed.

Lemma M_model_robertson_overwrites_stale_diagonal :
  M_model_robertson stale_diagonal 0%float [] [] [] = Some diag110.
Proof.
  apply (M_model_robertson_needs_zeroed_buffer stale_diagonal);
    [reflexivity|].
  intros i Hi H0 H4.
  do 9 (destruct i as [|i]; [first [reflexivity | congruence]|]). lia.
Defined.

End RobertsonBuffer.

(* ===================================================================== *)
(** * regression_2642.xml: the model after [t = 0] *)
(* ===================================================================== *)

Module Regression2642Dynamics.

Import Regression2642.

#[local] Open Scope string_scope.
#[local] Open Scope Q_scope.

(** The identifiers the file declares for its formulas: its species, its
    parameters, its compartment and its reactions. *)
Definition declared (m : model) : list string :=
  map species_id (listOfSpecies m)
  ++ map parameter_id (listOfParameters m)
  ++ map compartment_id (listOfCompartments m)
  ++ map reaction_id (listOfReactions m).

(** The value of an identifier at [t = 0]. The identifier of a reaction
    stands for the rate of the reaction; every other identifier has its
    initial value. *)
Definition identifier_value (v : valuation) (m : model) (x : string)
    : option Q :=
  match find (fun q => String.eqb (reaction_id q) x) (listOfReactions m) with
  | Some q => initial_rate v m q
  | None => initial_value v m x
  end.

(** The value of an identifier when the species hold the amounts [st]. The
    parameters and the compartment of the file are all [constant="true"]:
    they keep the value they have at [t = 0]. The species are
    [constant="false"] and are read from the state. *)
Definition value_at_state (v : valuation) (m : model)
    (st : string -> option Q) (x : string) : option Q :=
  if existsb (fun s => String.eqb (species_id s) x) (listOfSpecies m)
  then st x
  else initial_value v m x.

(** The net rate of species [s] under an assignment of the identifiers: as
    [net_initial_rate], with the kinetic laws evaluated under [env]. *)
Definition net_rate (env : string -> option Q) (m : model) (s : string)
    : option Q :=
  foldr (fun r acc =>
           a ← acc; j ← eval env (kineticLaw r);
           Some (net_stoichiometry s r * j + a))
        (Some 0) (listOfReactions m).

(** The state in which the two species of the file hold [mi] and [mm]. *)
Definition two_species (mi mm : Q) : string -> option Q :=
  fun x =>
    if String.eqb x "MR_i" then Some mi
    else if String.eqb x "MR_m" then Some mm
    else None.

(** A valuation that sets [MR_m_t0] to zero. *)
Definition MR_m_t0_zero : valuation :=
  fun x => if String.eqb x "MR_m_t0" then Some 0 else None.

(** A valuation that gives values to the two parameters the file assigns
    at [t = 0]. *)
Definition sets_assigned_parameters : valuation :=
  fun x =>
    if String.eqb x "binding" then Some 5
    else if String.eqb x "synthesis_MR" then Some 7
    else None.

(** At [t = 0] the net rate is the net initial rate. *)
Lemma net_rate_at_t0 (v : valuation) (m : model) (s : string) :
  net_rate (initial_value v m) m s = net_initial_rate v m s.
Proof. reflexivity. Qed.

(** A rational that is zero passes the test of [divide]. *)
Lemma Qeq_bool_zero (q : Q) : q == 0 -> Qeq_bool q 0 = true.
Proof. intros Hq. apply Qeq_bool_iff. exact Hq. Qed.

(** Formulas and net rates read the identifiers through their values
    only. *)
Lemma eval_ext (env1 env2 : string -> option Q) (e : math) :
  (forall x : string, env1 x = env2 x) -> eval env1 e = eval env2 e.
Proof.
  intros Henv.
  induction e as [x|q|a IHa b IHb|a IHa b IHb|a IHa b IHb];
    cbn [eval]; rewrite ?IHa, ?IHb; auto.
Qed.

Lemma net_rate_ext (env1 env2 : string -> option Q) (m : model)
    (s : string) :
  (forall x : string, env1 x = env2 x) ->
  net_rate env1 m s = net_rate env2 m s.
Proof.
  intros Henv. unfold net_rate.
  induction (listOfReactions m) as [|r rs IH]; [reflexivity|].
  cbn [foldr]. rewrite IH, (eval_ext env1 env2 _ Henv). reflexivity.
Qed.

(** Unfolds the model of the file and splits on the values the caller
    gives to the three parameters that are read. *)
Ltac evaluate_regression_2642 v :=
  unfold net_rate, net_initial_rate, initial_rate, reaction_at,
    value_at_state, initial_value, two_species in *;
  cbn -[Qmult Qdiv Qminus Qplus Qeq_bool Qopp] in *;
  destruct (v "MR_m_t0") as [?m0|], (v "recycling") as [?rc|],
           (v "MR_i_t0") as [?i0|].

(** X4. The right-hand side of the model. With an initial value of [MR_m] that
    is not zero, in every state [(mi, mm)] of the two species the net rate
    of [MR_i] is [synthesis_MR - recycling * mi + binding * mm] and that of
    [MR_m] is [recycling * mi - binding * mm], where the three parameters
    keep their values at [t = 0]. *)
Theorem net_rates_in_every_state :
  forall (v : valuation) (MR_m0 : Q),
    initial_value v regression_2642 "MR_m" = Some MR_m0 ->
    ~ MR_m0 == 0 ->
    exists synthesis_MR recycling binding : Q,
      initial_value v regression_2642 "synthesis_MR" = Some synthesis_MR
      /\ initial_value v regression_2642 "recycling" = Some recycling
      /\ initial_value v regression_2642 "binding" = Some binding
      /\ forall mi mm : Q,
           exists r_i r_m : Q,
             net_rate (value_at_state v regression_2642 (two_species mi mm))
                      regression_2642 "MR_i" = Some r_i
             /\ r_i == synthesis_MR - recycling * mi + binding * mm
             /\ net_rate (value_at_state v regression_2642
                            (two_species mi mm))
                         regression_2642 "MR_m" = Some r_m
             /\ r_m == recycling * mi - binding * mm.
Proof.
  intros v MR_m0 Hm Hnz.
  pose proof (Qeq_bool_nonzero MR_m0 Hnz) as Hdiv.
  evaluate_regression_2642 v;
    injection Hm as Hm; subst MR_m0;
    cbn -[Qmult Qdiv Qminus Qplus Qeq_bool Qopp];
    rewrite ?Hdiv; unfold net_stoichiometry;
    cbn -[Qmult Qdiv Qminus Qplus Qopp];
    do 3 eexists; do 3 (split; [reflexivity|]);
    intros mi mm; do 2 eexists;
    (split; [reflexivity|]); (split; [ring|]);
    (split; [reflexivity|]); ring.
Qed.

Lemma net_rates_in_every_state_of_the_file :
  exists r_i r_m : Q,
    net_rate (value_at_state as_in_file regression_2642 (two_species 1 2))
             regression_2642 "MR_i" = Some r_i
    /\ net_rate (value_at_state as_in_file regression_2642 (two_species 1 2))
                regression_2642 "MR_m" = Some r_m.
Proof.
  destruct (net_rates_in_every_state as_in_file (600000 # 1))
    as (s & rc & b & _ & _ & _ & H);
    [reflexivity | intros H; vm_compute in H; discriminate H |].
  destruct (H 1 2) as (ri & rm & Hi & _ & Hm & _).
  exists ri, rm. split; assumption.
Defined.

(** X5. Reactions [_J1] and [_J2] only move the receptor between the two
    species, and [_J0] adds it at the rate [synthesis_MR]: in every state the
    two net rates add up to the value the file assigns to [synthesis_MR].
    That value is not zero, so no state of the model is a steady state. *)
Theorem no_state_is_steady :
  forall (v : valuation) (MR_m0 : Q),
    initial_value v regression_2642 "MR_m" = Some MR_m0 ->
    ~ MR_m0 == 0 ->
    forall mi mm : Q,
      exists r_i r_m : Q,
        net_rate (value_at_state v regression_2642 (two_species mi mm))
                 regression_2642 "MR_i" = Some r_i
        /\ net_rate (value_at_state v regression_2642 (two_species mi mm))
                    regression_2642 "MR_m" = Some r_m
        /\ r_i + r_m == synthesis_MR_value
        /\ ~ (r_i == 0 /\ r_m == 0).
Proof.
  intros v MR_m0 Hm Hnz mi mm.
  pose proof (Qeq_bool_nonzero MR_m0 Hnz) as Hdiv.
  assert (Hsum : forall a b : Q,
             a + b == synthesis_MR_value -> ~ (a == 0 /\ b == 0)).
  { intros a b Hab [Ha Hb]. rewrite Ha, Hb in Hab.
    apply synthesis_MR_value_nonzero. rewrite <- Hab. ring. }
  evaluate_regression_2642 v;
    injection Hm as Hm; subst MR_m0;
    cbn -[Qmult Qdiv Qminus Qplus Qeq_bool Qopp];
    rewrite ?Hdiv; unfold net_stoichiometry;
    cbn -[Qmult Qdiv Qminus Qplus Qopp];
    do 2 eexists; do 2 (split; [reflexivity|]);
    match goal with
    | |- ?a + ?b == _ /\ _ =>
        assert (Hab : a + b == synthesis_MR_value)
          by (unfold synthesis_MR_value; ring);
        split; [exact Hab | exact (Hsum a b Hab)]
    end.
Qed.

Lemma no_state_is_steady_in_file :
  exists r_i r_m : Q,
    net_rate (value_at_state as_in_file regression_2642 (two_species 0 0))
             regression_2642 "MR_i" = Some r_i
    /\ net_rate (value_at_state as_in_file regression_2642 (two_species 0 0))
                regression_2642 "MR_m" = Some r_m
    /\ ~ (r_i == 0 /\ r_m == 0).
Proof.
  destruct (no_state_is_steady as_in_file (600000 # 1)
              ltac:(reflexivity)
              ltac:(intros H; vm_compute in H; discriminate H) 0 0)
    as (ri & rm & Hi & Hm & _ & Hns).
  exists ri, rm. repeat split; assumption.
Defined.

(** X6. The initial assignment of [binding] divides by [MR_m]. With an initial
    value of [MR_m] that is zero, [binding] has no value at [t = 0], and
    neither have the rate of [_J2] and the net initial rates of the two
    species. *)
Theorem binding_undefined_without_MR_m :
  forall (v : valuation) (MR_m0 : Q),
    initial_value v regression_2642 "MR_m" = Some MR_m0 ->
    MR_m0 == 0 ->
    initial_value v regression_2642 "binding" = None
    /\ reaction_at regression_2642 2 ≫= initial_rate v regression_2642 = None
    /\ net_initial_rate v regression_2642 "MR_i" = None
    /\ net_initial_rate v regression_2642 "MR_m" = None.
Proof.
  intros v MR_m0 Hm Hz.
  pose proof (Qeq_bool_zero MR_m0 Hz) as Hdiv.
  evaluate_regression_2642 v;
    injection Hm as Hm; subst MR_m0;
    cbn -[Qmult Qdiv Qminus Qplus Qeq_bool Qopp];
    rewrite ?Hdiv; cbn -[Qmult Qdiv Qminus Qplus Qopp];
    try (vm_compute in Hdiv; discriminate Hdiv);
    repeat split; reflexivity.
Qed.

Lemma binding_undefined_with_MR_m_t0_zero :
  initial_value MR_m_t0_zero regression_2642 "binding" = None
  /\ net_initial_rate MR_m_t0_zero regression_2642 "MR_i" = None.
Proof.
  destruct (binding_undefined_without_MR_m MR_m_t0_zero 0)
    as (Hb & _ & Hi & _); [reflexivity | reflexivity |].
  split; assumption.
Defined.

(** X7. The caller's values are read for [recycling], [MR_i_t0] and [MR_m_t0]
    only: two valuations that agree on these three give every identifier
    the same value at [t = 0], and every species the same net rate in every
    state. A value given to [binding] or [synthesis_MR], which the file
    assigns at [t = 0], or to a species, is never read. *)
Theorem valuation_is_read_at_three_parameters :
  forall v1 v2 : valuation,
    v1 "recycling" = v2 "recycling" ->
    v1 "MR_i_t0" = v2 "MR_i_t0" ->
    v1 "MR_m_t0" = v2 "MR_m_t0" ->
    (forall x : string,
        initial_value v1 regression_2642 x
        = initial_value v2 regression_2642 x)
    /\ (forall (st : string -> option Q) (s : string),
          net_rate (value_at_state v1 regression_2642 st) regression_2642 s
          = net_rate (value_at_state v2 regression_2642 st)
                     regression_2642 s).
Proof.
  intros v1 v2 Hrc Hi Hm.
  assert (Hval : forall x : string,
             initial_value v1 regression_2642 x
             = initial_value v2 regression_2642 x).
  { intros x. unfold initial_value.
    cbn -[String.eqb Qmult Qdiv Qminus Qplus Qeq_bool Qopp].
    repeat match goal with
           | |- context [String.eqb ?a x] =>
               destruct (String.eqb_spec a x) as [<-|?];
               [cbn -[Qmult Qdiv Qminus Qplus Qeq_bool Qopp];
                rewrite ?Hrc, ?Hi, ?Hm; reflexivity|]
           end.
    reflexivity. }
  split; [exact Hval|].
  intros st s. apply net_rate_ext. intros x. unfold value_at_state.
  rewrite Hval. reflexivity.
Qed.

Lemma assigned_parameters_are_not_read :
  initial_value sets_assigned_parameters regression_2642 "binding"
  = initial_value as_in_file regression_2642 "binding"
  /\ initial_value sets_assigned_parameters regression_2642 "synthesis_MR"
     = initial_value as_in_file regression_2642 "synthesis_MR".
Proof.
  destruct (valuation_is_read_at_three_parameters
              sets_assigned_parameters as_in_file)
    as [Hval _]; [reflexivity | reflexivity | reflexivity |].
  split; apply Hval.
Defined.

(** X8. With an initial value of [MR_m] that is not zero, every identifier
    the file declares has a value at [t = 0]: the two species, the five
    parameters (the two without a [value] attribute among them, by their
    initial assignments), the compartment, and the three reactions, whose
    identifiers stand for their rates. *)
Theorem declared_identifiers_have_values :
  forall (v : valuation) (MR_m0 : Q),
    initial_value v regression_2642 "MR_m" = Some MR_m0 ->
    ~ MR_m0 == 0 ->
    forall x : string,
      x ∈ declared regression_2642 ->
      is_Some (identifier_value v regression_2642 x).
Proof.
  intros v MR_m0 Hm Hnz x Hin. apply list_elem_of_In in Hin.
  pose proof (Qeq_bool_nonzero MR_m0 Hnz) as Hdiv.
  cbn in Hin. unfold identifier_value.
  repeat (destruct Hin as [<-|Hin];
          [evaluate_regression_2642 v;
             injection Hm as Hm; subst MR_m0;
             cbn -[Qmult Qdiv Qminus Qplus Qeq_bool Qopp];
             rewrite ?Hdiv; cbn -[Qmult Qdiv Qminus Qplus Qopp];
             eauto|]).
  contradiction.
Qed.

Lemma declared_identifiers_have_values_in_file :
  is_Some (identifier_value as_in_file regression_2642 "binding")
  /\ is_Some (identifier_value as_in_file regression_2642 "_J2").
Proof.
  pose proof (declared_identifiers_have_values as_in_file (600000 # 1)
                ltac:(reflexivity)
                ltac:(intros H; vm_compute in H; discriminate H)) as Hdecl.
  split; apply Hdecl; apply list_elem_of_In; cbn; tauto.
Defined.

End Regression2642Dynamics.
